(** * fraud_utils: input normalisation, model cache and threshold decision

    A shallow embedding of [fraud_utils.py] (the prediction helper behind the
    Streamlit form of [fraud_app.py]) and the properties of its four
    functions: [_to_binary], [prepare_input_df], [load_model] and
    [predict_fraud].

    Conventions of the embedding.
    - A Python value is a [pyval]; a [float] is a kernel binary64 float, so
      comparisons and truncation are the IEEE ones Python uses.
    - A [str] is a [string] whose characters are the code points U+0000 to
      U+00FF; [strip] and [lower] are Python's on that range.
    - A raised exception is the [Err] branch of [result]; what joblib, the
      math module or the unpickled estimator raise is a [foreign] error,
      re-raised as [Raised].
    - The module global [_model] and the number of [joblib.load] calls made
      so far form the [world] that [load_model] and [predict_fraud] thread. *)

From Stdlib Require Import ZArith String Ascii List Bool Lia.
From Corelib Require Import PrimFloat.
From Stdlib Require Import SpecFloat FloatOps FloatAxioms.
From stdpp Require Import base option list gmap strings fin_maps.

#[local] Open Scope string_scope.
#[local] Open Scope Z_scope.

(** ** Exceptions and results *)

(** [pathlib.Path]: the components below the root. *)
Definition path := list string.

Inductive exn : Type :=
| FileNotFoundError (model_path : path)
    (* FileNotFoundError(f"Model file not found: {model_path}") *)
| ValueError_missing (missing : list string)
    (* ValueError(f"Missing required feature(s): {missing}") *)
| ValueError_nan          (* int(float("nan")) *)
| OverflowError           (* int(float("inf")), float(10**400) *)
| ZeroDivisionError
| IndexError
| KeyError (key : string)
| AttributeError (attr : string)
| TypeError
| Raised (what : string)  (* raised by code outside this module *).

Inductive result (A : Type) : Type :=
| Ok (a : A)
| Err (e : exn).
Arguments Ok {A} a.
Arguments Err {A} e.

Definition bind {A B} (c : result A) (k : A -> result B) : result B :=
  match c with
  | Ok a => k a
  | Err e => Err e
  end.

Notation "x <- c ;; k" := (bind c (fun x => k))
  (at level 100, c at next level, right associativity).

(** The outcome of a call into joblib, math or the estimator. *)
Definition foreign (A : Type) : Type := string + A.

Definition call {A} (r : foreign A) : result A :=
  match r with
  | inr a => Ok a
  | inl what => Err (Raised what)
  end.

(** ** Python values and the builtins the module uses *)

Inductive pyval : Type :=
| PyBool (b : bool)
| PyInt (n : Z)
| PyFloat (f : float)
| PyStr (s : string)
| PyNone
| PyObject (type_name : string)  (* a value of any other type *).

(** [int(f)] on a float: truncation towards zero. *)
Definition int_of_float (f : float) : result Z :=
  match Prim2SF f with
  | S754_nan => Err ValueError_nan
  | S754_infinity _ => Err OverflowError
  | S754_zero _ => Ok 0
  | S754_finite s m e =>
      let magnitude :=
        if 0 <=? e then Z.shiftl (Z.pos m) e else Z.shiftr (Z.pos m) (- e) in
      Ok (if s then - magnitude else magnitude)
  end.

(** [float(n)] on an int: round to nearest even, OverflowError beyond the
    binary64 range. *)
Definition float_of_int (n : Z) : result float :=
  match binary_normalize prec emax n 0 false with
  | S754_infinity _ => Err OverflowError
  | sf => Ok (SF2Prim sf)
  end.

(** [str.isspace] on one character. *)
Definition isspace (c : ascii) : bool :=
  let n := N_of_ascii c in
  (((9 <=? n) && (n <=? 13)) || ((28 <=? n) && (n <=? 32))
   || (n =? 133) || (n =? 160))%N.

Fixpoint lstrip (s : string) : string :=
  match s with
  | String c s' => if isspace c then lstrip s' else s
  | EmptyString => EmptyString
  end.

Fixpoint rstrip (s : string) : string :=
  match s with
  | EmptyString => EmptyString
  | String c s' =>
      match rstrip s' with
      | EmptyString => if isspace c then EmptyString else String c EmptyString
      | r => String c r
      end
  end.

(** [s.strip()] *)
Definition strip (s : string) : string := rstrip (lstrip s).

Definition lower_char (c : ascii) : ascii :=
  let n := N_of_ascii c in
  if (((65 <=? n) && (n <=? 90)) || ((192 <=? n) && (n <=? 214))
      || ((216 <=? n) && (n <=? 222)))%N
  then ascii_of_N (n + 32)
  else c.

(** [s.lower()] *)
Fixpoint lower (s : string) : string :=
  match s with
  | EmptyString => EmptyString
  | String c s' => String (lower_char c) (lower s')
  end.

(** [v in {...}] on a set literal of strings. *)
Definition str_in (v : string) (tokens : list string) : bool :=
  bool_decide (v ∈ tokens).

(** ** The module [fraud_utils] *)

Module FraudUtils.

(** *** Input preparation *)

Definition BINARY_COLUMNS : list string :=
  [ "device_change_last_48hr";
    "new_payee_added_last_7d";
    "international_ip_flag" ].

Definition _to_binary (value : pyval) : result Z :=
  match value with
  | PyBool b => Ok (Z.b2z b)
  | PyInt n => Ok n
  | PyFloat f => int_of_float f
  | PyStr s =>
      let v := lower (strip s) in
      if str_in v ["yes"; "y"; "true"; "1"] then Ok 1
      else if str_in v ["no"; "n"; "false"; "0"] then Ok 0
      else Ok 0
  | _ => Ok 0
  end.

(** A dict with string keys; [dict(user_input)] is a shallow copy, and a map
    is a value, so the caller's dict is never touched. *)
Abbreviation pydict := (gmap string pyval).

(** The one-row [pd.DataFrame] handed to the estimator. *)
Record DataFrame : Type := {
  columns : list string;
  rows : list (list pyval);
}.

Definition FEATURES : list string :=
  [ "age";
    "city";
    "account_tenure_months";
    "avg_monthly_balance";
    "kyc_type";
    "total_inflow_24hr";
    "count_inflow_24hr";
    "count_unique_creditors_24hr";
    "total_outflow_24hr";
    "count_outflow_24hr";
    "time_diff_first_inflow_to_outflow";
    "percent_inflow_cashed_out_1hr";
    "velocity_inflow_1hr";
    "velocity_outflow_1hr";
    "device_change_last_48hr";
    "new_payee_added_last_7d";
    "international_ip_flag";
    "txn_amount";
    "txn_hour";
    "merchant_category" ].

(** One turn of [for col in BINARY_COLUMNS]. *)
Definition normalise_binary (data : pydict) (col : string) : result pydict :=
  match data !! col with
  | Some value => b <- _to_binary value ;; Ok (<[col := PyInt b]> data)
  | None => Ok (<[col := PyInt 0]> data)
  end.

Fixpoint normalise_columns (cols : list string) (data : pydict) : result pydict :=
  match cols with
  | [] => Ok data
  | col :: cols' => data' <- normalise_binary data col ;; normalise_columns cols' data'
  end.

(** [[data[f] for f in keys]] *)
Fixpoint getitems (data : pydict) (keys : list string) : result (list pyval) :=
  match keys with
  | [] => Ok []
  | f :: keys' =>
      match data !! f with
      | Some v => vs <- getitems data keys' ;; Ok (v :: vs)
      | None => Err (KeyError f)
      end
  end.

Definition prepare_input_df (user_input : pydict) : result DataFrame :=
  let data := user_input in
  data <- normalise_columns BINARY_COLUMNS data ;;
  match filter (fun f => data !! f = None) FEATURES with
  | [] =>
      row <- getitems data FEATURES ;;
      Ok {| columns := FEATURES; rows := [row] |}
  | missing => Err (ValueError_missing missing)
  end.

(** *** The estimator and the module-level cache *)

(** What [joblib.load] gives back: an object that has, or has not, each of the
    three scoring methods ([hasattr] is [is_Some]). The pickle is taken to
    hold an estimator object, never [None]. *)
Record estimator : Type := {
  predict_proba : option (DataFrame -> foreign (list (list float)));
  decision_function : option (DataFrame -> foreign (list float));
  predict : option (DataFrame -> foreign (list pyval));
}.

(** An object in memory: [obj_id] tells two unpicklings of one file apart. *)
Record instance : Type := {
  obj_id : nat;
  obj : estimator;
}.

Record filesystem : Type := {
  path_exists : path -> bool;
  joblib_load : path -> foreign estimator;
}.

(** The global [_model] ([None] until the first load) and the number of
    [joblib.load] calls made so far. *)
Record world : Type := {
  _model : option instance;
  loads : nat;
}.

Definition initial : world := {| _model := None; loads := 0 |}.

Definition MODEL_FILENAME : string := "mule_fraud_model.pkl".

(** [arr[i]] on a one-dimensional array. *)
Definition getitem {A} (arr : list A) (i : nat) : result A :=
  match arr !! i with
  | Some x => Ok x
  | None => Err IndexError
  end.

(** [1 / x] on Python floats. *)
Definition truediv (x y : float) : result float :=
  if (y =? 0)%float then Err ZeroDivisionError else Ok (x / y)%float.

(** [proba >= threshold] *)
Definition float_ge (x y : float) : bool := (y <=? x)%float.

Section Process.

(** [Path(__file__).resolve().parent] *)
Variable here : path.
(** [math.exp], which raises OverflowError on large arguments. *)
Variable math_exp : float -> foreign float.
(** [float(s)] on a string. *)
Variable float_of_str : string -> foreign float.

Definition model_path : path := (here ++ [MODEL_FILENAME])%list.

Definition load_model (fs : filesystem) (w : world) : result instance * world :=
  match _model w with
  | None =>
      if negb (path_exists fs model_path)
      then (Err (FileNotFoundError model_path), w)
      else
        match joblib_load fs model_path with
        | inl what =>
            (Err (Raised what), {| _model := _model w; loads := S (loads w) |})
        | inr est =>
            let m := {| obj_id := loads w; obj := est |} in
            (Ok m, {| _model := Some m; loads := S (loads w) |})
        end
  | Some m => (Ok m, w)
  end.

(** [float(v)] *)
Definition py_float (v : pyval) : result float :=
  match v with
  | PyBool b => Ok (if b then 1 else 0)%float
  | PyInt n => float_of_int n
  | PyFloat f => Ok f
  | PyStr s => call (float_of_str s)
  | PyNone | PyObject _ => Err TypeError
  end.

(** The three branches of [predict_fraud] that compute [proba]. *)
Definition proba_of (model : estimator) (X : DataFrame) : result float :=
  match predict_proba model with
  | Some predict_proba =>
      arr <- call (predict_proba X) ;;
      row <- getitem arr 0 ;;
      getitem row 1
  | None =>
      match decision_function model with
      | Some decision_function =>
          arr <- call (decision_function X) ;;
          score <- getitem arr 0 ;;
          e <- call (math_exp (- score)%float) ;;
          truediv 1 (1 + e)
      | None =>
          match predict model with
          | Some predict =>
              arr <- call (predict X) ;;
              v <- getitem arr 0 ;;
              py_float v
          | None => Err (AttributeError "predict")
          end
      end
  end.

Definition predict_fraud (fs : filesystem) (user_input : pydict)
    (threshold : float) (w : world) : result (Z * float) * world :=
  let (loaded, w') := load_model fs w in
  (model <- loaded ;;
   X <- prepare_input_df user_input ;;
   proba <- proba_of (obj model) X ;;
   let label := Z.b2z (float_ge proba threshold) in
   Ok (label, proba),
   w').

(** *** Calls in sequence *)

Inductive operation : Type :=
| LoadModel (fs : filesystem)
| PredictFraud (fs : filesystem) (user_input : pydict) (threshold : float).

Definition exec (w : world) (op : operation) : world :=
  match op with
  | LoadModel fs => snd (load_model fs w)
  | PredictFraud fs user_input threshold =>
      snd (predict_fraud fs user_input threshold w)
  end.

(** [n] calls of [load_model], one after the other. *)
Fixpoint load_model_n (fs : filesystem) (n : nat) (w : world)
    : list (result instance) * world :=
  match n with
  | O => ([], w)
  | S n' =>
      let (r, w') := load_model fs w in
      let (rs, w'') := load_model_n fs n' w' in
      (r :: rs, w'')
  end.

(** *** Calls that overlap

    [load_model] takes no lock, so the calls of several threads interleave
    between its statements. A thread is at one of the statements, or has
    finished. *)

Inductive pc : Type :=
| AtTest                      (* if _model is None: *)
| AtExists                    (* if not model_path.exists(): *)
| AtLoad                      (* joblib.load(model_path) *)
| AtStore (m : instance)      (* _model = <the object just loaded> *)
| AtReturn                    (* return _model *)
| Returned (r : option instance)
| Raising (e : exn).

Definition thread_step (fs : filesystem) (w : world) (p : pc) : world * pc :=
  match p with
  | AtTest =>
      (w, match _model w with None => AtExists | Some _ => AtReturn end)
  | AtExists =>
      (w, if negb (path_exists fs model_path)
          then Raising (FileNotFoundError model_path)
          else AtLoad)
  | AtLoad =>
      ({| _model := _model w; loads := S (loads w) |},
       match joblib_load fs model_path with
       | inl what => Raising (Raised what)
       | inr est => AtStore {| obj_id := loads w; obj := est |}
       end)
  | AtStore m => ({| _model := Some m; loads := loads w |}, AtReturn)
  | AtReturn => (w, Returned (_model w))
  | Returned _ | Raising _ => (w, p)
  end.

(** The scheduler lets thread [i] run one statement. *)
Definition sched_step (fs : filesystem) (st : world * list pc) (i : nat)
    : world * list pc :=
  match snd st !! i with
  | Some p =>
      let (w', p') := thread_step fs (fst st) p in
      (w', <[i := p']> (snd st))
  | None => st
  end.

Definition run (fs : filesystem) (schedule : list nat) (st : world * list pc)
    : world * list pc :=
  foldl (sched_step fs) st schedule.

(** [n] threads, all about to call [load_model] for the first time. *)
Definition first_callers (n : nat) : world * list pc :=
  (initial, replicate n AtTest).

End Process.

End FraudUtils.

Import FraudUtils.

(** ** Sample inputs *)

Module Sample.

(** The record the form of [fraud_app.py] submits with its default values. *)
Definition complete_record : pydict :=
  list_to_map
    [ ("age", PyInt 30);
      ("city", PyStr "Bengaluru");
      ("account_tenure_months", PyInt 12);
      ("avg_monthly_balance", PyFloat 25000);
      ("kyc_type", PyStr "Full");
      ("total_inflow_24hr", PyFloat 50000);
      ("count_inflow_24hr", PyInt 3);
      ("count_unique_creditors_24hr", PyInt 2);
      ("total_outflow_24hr", PyFloat 45000);
      ("count_outflow_24hr", PyInt 4);
      ("time_diff_first_inflow_to_outflow", PyFloat 10);
      ("percent_inflow_cashed_out_1hr", PyFloat 80);
      ("velocity_inflow_1hr", PyInt 1);
      ("velocity_outflow_1hr", PyInt 2);
      ("device_change_last_48hr", PyStr "No");
      ("new_payee_added_last_7d", PyStr "No");
      ("international_ip_flag", PyStr "No");
      ("txn_amount", PyFloat 20000);
      ("txn_hour", PyInt 14);
      ("merchant_category", PyStr "Groceries") ].

(** The row [prepare_input_df] builds from [complete_record]. *)
Definition complete_row : list pyval :=
  [ PyInt 30; PyStr "Bengaluru"; PyInt 12; PyFloat 25000; PyStr "Full";
    PyFloat 50000; PyInt 3; PyInt 2; PyFloat 45000; PyInt 4; PyFloat 10;
    PyFloat 80; PyInt 1; PyInt 2; PyInt 0; PyInt 0; PyInt 0;
    PyFloat 20000; PyInt 14; PyStr "Groceries" ].

Definition here : path := ["srv"; "fraud"].

(** A classifier with [predict_proba]: always 0.5 for the fraud class. *)
Definition proba_estimator : estimator :=
  {| predict_proba := Some (fun _ => inr [[0.5; 0.5]%float]);
     decision_function := Some (fun _ => inr [0%float]);
     predict := Some (fun _ => inr [PyInt 1]) |}.

(** A margin classifier: no [predict_proba], margin 0. *)
Definition margin_estimator : estimator :=
  {| predict_proba := None;
     decision_function := Some (fun _ => inr [0%float]);
     predict := Some (fun _ => inr [PyInt 1]) |}.

(** A classifier that only has [predict]. *)
Definition label_estimator : estimator :=
  {| predict_proba := None;
     decision_function := None;
     predict := Some (fun _ => inr [PyInt 1]) |}.

(** A disk on which the model file is there and unpickles to [est]. *)
Definition disk_with (est : estimator) : filesystem :=
  {| path_exists := fun _ => true; joblib_load := fun _ => inr est |}.

(** A disk without the model file. *)
Definition empty_disk : filesystem :=
  {| path_exists := fun _ => false;
     joblib_load := fun _ => inl "No such file or directory" |}.

(** [math.exp] where the samples need it: [exp(0) = 1]. *)
Definition exp_near_zero (x : float) : foreign float :=
  if (x =? 0)%float then inr 1%float else inl "OverflowError".

(** [float(s)] where the samples need it. *)
Definition float_of_digit (s : string) : foreign float :=
  if String.eqb s "1" then inr 1%float
  else if String.eqb s "0" then inr 0%float
  else inl "ValueError".

(** The frame [prepare_input_df] builds from [complete_record]. *)
Definition complete_frame : DataFrame :=
  {| columns := FEATURES; rows := [complete_row] |}.

(** The object the [k]-th [joblib.load] call builds from [est]. *)
Definition object (k : nat) (est : estimator) : instance :=
  {| obj_id := k; obj := est |}.

(** The world after the first successful load of [est]. *)
Definition loaded (est : estimator) : world :=
  {| _model := Some (object 0 est); loads := 1 |}.

(** Two threads: both test [_model], both load, both store. *)
Definition racing_schedule : list nat :=
  [0; 1; 0; 1; 0; 1; 0; 0; 1; 1]%nat.

Definition without_age : pydict := delete "age" complete_record.

End Sample.

(** ** Vocabulary of the statements *)

Definition all_space (s : string) : Prop :=
  forallb isspace (list_ascii_of_string s) = true.

(** What the loop over [BINARY_COLUMNS] leaves in column [col]. *)
Definition coerced (user_input : pydict) (col : string) (b : Z) : Prop :=
  match user_input !! col with
  | Some v => _to_binary v = Ok b
  | None => b = 0
  end.

(** Every flag the caller supplied is one [_to_binary] accepts. *)
Definition flags_coercible (user_input : pydict) : Prop :=
  forall col v, col ∈ BINARY_COLUMNS -> user_input !! col = Some v ->
    exists b, _to_binary v = Ok b.

(** A thread that has not reached the end of [joblib.load] yet. *)
Definition pending (p : pc) : nat :=
  match p with
  | AtTest | AtExists | AtLoad => 1
  | _ => 0
  end.

Section Invariant.

Context (here : path) (fs : filesystem).

(** [m] is an object that a finished [joblib.load] call has built. *)
Definition loaded_from (w : world) (m : instance) : Prop :=
  (obj_id m < loads w)%nat /\ joblib_load fs (model_path here) = inr (obj m).

Definition pc_ok (w : world) (p : pc) : Prop :=
  match p with
  | AtStore m => loaded_from w m
  | AtReturn => is_Some (_model w)
  | Returned r => exists m, r = Some m /\ loaded_from w m
  | _ => True
  end.

(** What every schedule keeps true of the cache and the threads. *)
Definition invariant (st : world * list pc) : Prop :=
  (forall m, _model (fst st) = Some m -> loaded_from (fst st) m)
  /\ Forall (pc_ok (fst st)) (snd st)
  /\ (loads (fst st) + sum_list_with pending (snd st) <= length (snd st))%nat.

End Invariant.

(** * Properties *)

(** ** Strings *)

Lemma lstrip_spaces (ws t : string) :
  all_space ws -> lstrip (ws ++ t)%string = lstrip t.
Proof.
  unfold all_space. induction ws as [|c ws IH]; simpl; [reflexivity|].
  intros H. apply andb_prop in H as [Hc Hws]. rewrite Hc. auto.
Qed.

Lemma lstrip_all_space (ws : string) : all_space ws -> lstrip ws = EmptyString.
Proof.
  unfold all_space. induction ws as [|c ws IH]; simpl; [reflexivity|].
  intros H. apply andb_prop in H as [Hc Hws]. rewrite Hc. auto.
Qed.

Lemma rstrip_all_space (ws : string) : all_space ws -> rstrip ws = EmptyString.
Proof.
  unfold all_space. induction ws as [|c ws IH]; simpl; [reflexivity|].
  intros H. apply andb_prop in H as [Hc Hws]. rewrite (IH Hws), Hc. reflexivity.
Qed.

Lemma rstrip_spaces (t ws : string) :
  all_space ws -> rstrip (t ++ ws)%string = rstrip t.
Proof.
  intros Hws. induction t as [|c t IH]; simpl.
  - change ("" ++ ws)%string with ws. apply rstrip_all_space, Hws.
  - rewrite IH. reflexivity.
Qed.

Lemma strip_lstrip_spaces (t ws : string) :
  all_space ws -> rstrip (lstrip (t ++ ws)%string) = rstrip (lstrip t).
Proof.
  intros Hws. induction t as [|c t IH]; simpl.
  - change ("" ++ ws)%string with ws.
    rewrite (lstrip_all_space ws Hws). reflexivity.
  - destruct (isspace c); [exact IH|].
    change (String c (t ++ ws)%string) with (String c t ++ ws)%string.
    apply rstrip_spaces, Hws.
Qed.

(** [strip] removes any run of whitespace on either side. *)
Lemma strip_padded (ws1 t ws2 : string) :
  all_space ws1 -> all_space ws2 ->
  strip (ws1 ++ t ++ ws2)%string = strip t.
Proof.
  intros H1 H2. unfold strip. rewrite (lstrip_spaces _ _ H1).
  apply strip_lstrip_spaces, H2.
Qed.

Lemma str_in_true (v : string) (tokens : list string) :
  str_in v tokens = true <-> v ∈ tokens.
Proof. unfold str_in. apply bool_decide_eq_true. Qed.

(** ** [_to_binary] *)

Example to_binary_yes_padded : _to_binary (PyStr "  YES  ") = Ok 1.
Proof. vm_compute. reflexivity. Qed.

Example to_binary_truncates : _to_binary (PyFloat 2.75%float) = Ok 2.
Proof. vm_compute. reflexivity. Qed.

Example to_binary_truncates_neg : _to_binary (PyFloat (-2.75)%float) = Ok (-2).
Proof. vm_compute. reflexivity. Qed.

Example float_of_int_one : float_of_int 1 = Ok 1%float.
Proof. vm_compute. reflexivity. Qed.

Example float_of_int_huge : float_of_int (2 ^ 1024) = Err OverflowError.
Proof. vm_compute. reflexivity. Qed.

Example strip_tab_nbsp :
  strip (String (ascii_of_N 9) ("no" ++ String (ascii_of_N 160) ""))%string = "no".
Proof. vm_compute. reflexivity. Qed.

(** On a bool or a str the result is 0 or 1, and never an exception. *)
Lemma to_binary_bool (b : bool) :
  _to_binary (PyBool b) = Ok 0 \/ _to_binary (PyBool b) = Ok 1.
Proof. destruct b; simpl; auto. Qed.

Lemma to_binary_str (s : string) :
  _to_binary (PyStr s) = Ok 0 \/ _to_binary (PyStr s) = Ok 1.
Proof.
  simpl. destruct (str_in _ _); [auto|]. destruct (str_in _ _); auto.
Qed.

(** A str that is no token, and a value of any other type, give 0. *)
Lemma to_binary_unrecognised (s : string) :
  lower (strip s) ∉ ["yes"; "y"; "true"; "1"] -> _to_binary (PyStr s) = Ok 0.
Proof.
  intros H. simpl.
  assert (E : str_in (lower (strip s)) ["yes"; "y"; "true"; "1"] = false).
  { apply not_true_iff_false. rewrite str_in_true. exact H. }
  rewrite E. destruct (str_in _ ["no"; "n"; "false"; "0"]); reflexivity.
Qed.

Lemma to_binary_other_type (v : pyval) :
  v = PyNone \/ (exists t, v = PyObject t) -> _to_binary v = Ok 0.
Proof. intros [->|[t ->]]; reflexivity. Qed.

(** An int goes through [int(value)] unchanged. *)
Lemma to_binary_int (n : Z) : _to_binary (PyInt n) = Ok n.
Proof. reflexivity. Qed.

(** C1. [_to_binary] is meant to give 0 or 1 on every bool, int, float and
    str without raising. On numbers it returns [int(value)] as it is: the
    int 2 gives 2, the float 7.5 gives 7, the float -1.5 gives -1, and a NaN
    or an infinity raises. *)
Theorem to_binary_number_not_binary :
  _to_binary (PyInt 2) = Ok 2
  /\ _to_binary (PyFloat 7.5%float) = Ok 7
  /\ _to_binary (PyFloat (-1.5)%float) = Ok (-1)
  /\ _to_binary (PyFloat nan) = Err ValueError_nan
  /\ _to_binary (PyFloat infinity) = Err OverflowError.
Proof. repeat split; vm_compute; reflexivity. Qed.

(** C10. A str is stripped and lowercased before it is compared with the
    tokens: a str whose stripped lowercase form is "yes", "y", "true" or "1"
    gives 1 and one whose form is "no", "n", "false" or "0" gives 0; and
    whitespace around a str never changes the result. *)
Theorem to_binary_tokens (s : string) :
  (lower (strip s) ∈ ["yes"; "y"; "true"; "1"] -> _to_binary (PyStr s) = Ok 1)
  /\ (lower (strip s) ∈ ["no"; "n"; "false"; "0"] -> _to_binary (PyStr s) = Ok 0)
  /\ (forall ws1 ws2 : string, all_space ws1 -> all_space ws2 ->
        _to_binary (PyStr (ws1 ++ s ++ ws2)) = _to_binary (PyStr s)).
Proof.
  unfold _to_binary. split; [|split].
  - intros Ht. apply str_in_true in Ht. rewrite Ht. reflexivity.
  - intros Ht.
    destruct (str_in (lower (strip s)) ["yes"; "y"; "true"; "1"]) eqn:E;
      [|apply str_in_true in Ht; rewrite Ht; reflexivity].
    revert Ht E. generalize (lower (strip s)). intros v Hn E.
    apply list_elem_of_In in Hn. simpl in Hn.
    repeat destruct Hn as [<-|Hn]; try contradiction;
      vm_compute in E; discriminate E.
  - intros ws1 ws2 H1 H2. rewrite (strip_padded _ _ _ H1 H2). reflexivity.
Qed.

(** ** [prepare_input_df] *)

Lemma BINARY_COLUMNS_NoDup : NoDup BINARY_COLUMNS.
Proof. compute_done. Qed.

Lemma normalise_binary_other (data data' : pydict) (col k : string) :
  normalise_binary data col = Ok data' -> k <> col -> data' !! k = data !! k.
Proof.
  unfold normalise_binary. intros H Hk.
  destruct (data !! col) as [v|].
  - destruct (_to_binary v) as [b|e]; simpl in H; [|discriminate].
    injection H as <-. apply lookup_insert_ne. congruence.
  - injection H as <-. apply lookup_insert_ne. congruence.
Qed.

Lemma normalise_binary_self (data data' : pydict) (col : string) :
  normalise_binary data col = Ok data' ->
  exists b, coerced data col b /\ data' !! col = Some (PyInt b).
Proof.
  unfold normalise_binary, coerced. intros H.
  destruct (data !! col) as [v|].
  - destruct (_to_binary v) as [b|e]; simpl in H; [|discriminate].
    injection H as <-. exists b. split; [reflexivity|apply lookup_insert_eq].
  - injection H as <-. exists 0. split; [reflexivity|apply lookup_insert_eq].
Qed.

Lemma normalise_columns_spec (cols : list string) :
  NoDup cols -> forall data data' : pydict,
  normalise_columns cols data = Ok data' ->
  (forall k, k ∉ cols -> data' !! k = data !! k)
  /\ (forall k, k ∈ cols ->
        exists b, coerced data k b /\ data' !! k = Some (PyInt b)).
Proof.
  induction 1 as [|col cols Hnotin Hnodup IH]; intros data data' H; simpl in H.
  - injection H as <-. split; [reflexivity|]. intros k Hk. inversion Hk.
  - destruct (normalise_binary data col) as [d1|e] eqn:E1; simpl in H;
      [|discriminate].
    destruct (IH _ _ H) as [Hout Hin]. split.
    + intros k Hk. apply not_elem_of_cons in Hk as [Hne Hk].
      rewrite (Hout k Hk). eapply normalise_binary_other; eassumption.
    + intros k Hk. apply elem_of_cons in Hk as [->|Hk].
      * destruct (normalise_binary_self _ _ _ E1) as (b & Hb & Hd1).
        exists b. split; [exact Hb|]. rewrite (Hout col Hnotin). exact Hd1.
      * destruct (Hin k Hk) as (b & Hb & Hd). exists b. split; [|exact Hd].
        unfold coerced in *.
        rewrite (normalise_binary_other _ _ _ k E1) in Hb; [exact Hb|].
        intros ->. contradiction.
Qed.

Lemma normalise_columns_ok (cols : list string) :
  NoDup cols -> forall data : pydict,
  (forall col v, col ∈ cols -> data !! col = Some v ->
     exists b, _to_binary v = Ok b) ->
  exists data', normalise_columns cols data = Ok data'.
Proof.
  induction 1 as [|col cols Hnotin Hnodup IH]; intros data Hco; simpl.
  - eauto.
  - assert (exists d1, normalise_binary data col = Ok d1) as [d1 E1].
    { unfold normalise_binary. destruct (data !! col) as [v|] eqn:Ev; [|eauto].
      destruct (Hco col v) as [b ->]; [left|exact Ev|]. simpl. eauto. }
    rewrite E1. simpl. apply IH. intros c v Hc Hv.
    apply (Hco c v); [right; exact Hc|].
    rewrite <- Hv. symmetry. eapply normalise_binary_other; [eassumption|].
    intros ->. contradiction.
Qed.

Lemma getitems_spec (data : pydict) (keys : list string) :
  (forall f, f ∈ keys -> is_Some (data !! f)) ->
  exists row, getitems data keys = Ok row
    /\ Forall2 (fun f v => data !! f = Some v) keys row.
Proof.
  induction keys as [|f keys IH]; intros Hall; simpl.
  - eauto.
  - destruct (Hall f) as [v Hv]; [left|]. rewrite Hv.
    destruct IH as (row & -> & Hrow).
    { intros g Hg. apply Hall. right. exact Hg. }
    simpl. eauto.
Qed.

(** What [prepare_input_df] computes once the flags have been coerced. *)
Lemma prepare_input_df_after_flags (user_input data : pydict) :
  normalise_columns BINARY_COLUMNS user_input = Ok data ->
  prepare_input_df user_input =
    match filter (fun f => (f ∉ BINARY_COLUMNS) /\ user_input !! f = None) FEATURES with
    | [] =>
        row <- getitems data FEATURES ;;
        Ok {| columns := FEATURES; rows := [row] |}
    | missing => Err (ValueError_missing missing)
    end.
Proof.
  intros H. unfold prepare_input_df. rewrite H. simpl bind. cbv beta.
  destruct (normalise_columns_spec _ BINARY_COLUMNS_NoDup _ _ H) as [Hout Hin].
  rewrite (list_filter_iff (fun f => data !! f = None)
             (fun f => (f ∉ BINARY_COLUMNS) /\ user_input !! f = None)).
  - reflexivity.
  - intros f. destruct (decide (f ∈ BINARY_COLUMNS)) as [Hf|Hf].
    + destruct (Hin f Hf) as (b & _ & ->). split; [discriminate|tauto].
    + rewrite (Hout f Hf). tauto.
Qed.

(** The flags are coerced, the other fields are passed through, and the
    columns are [FEATURES] in their order: what holds whenever every flag the
    caller supplied is one [_to_binary] accepts. *)
Lemma prepare_input_df_ok (user_input : pydict) :
  flags_coercible user_input ->
  (forall f, f ∈ FEATURES -> f ∉ BINARY_COLUMNS -> is_Some (user_input !! f)) ->
  exists row,
    prepare_input_df user_input = Ok {| columns := FEATURES; rows := [row] |}
    /\ Forall2 (fun f v =>
          if decide (f ∈ BINARY_COLUMNS)
          then exists b, coerced user_input f b /\ v = PyInt b
          else user_input !! f = Some v) FEATURES row.
Proof.
  intros Hflags Hpresent.
  destruct (normalise_columns_ok _ BINARY_COLUMNS_NoDup user_input Hflags)
    as [data Hdata].
  destruct (normalise_columns_spec _ BINARY_COLUMNS_NoDup _ _ Hdata)
    as [Hout Hin].
  rewrite (prepare_input_df_after_flags _ _ Hdata).
  assert (Hnone : filter (fun f => (f ∉ BINARY_COLUMNS) /\ user_input !! f = None)
                    FEATURES = []).
  { destruct (filter _ FEATURES) as [|f l] eqn:E; [reflexivity|].
    assert (Hf : f ∈ filter (fun f => (f ∉ BINARY_COLUMNS) /\ user_input !! f = None)
                   FEATURES) by (rewrite E; left).
    apply list_elem_of_filter in Hf as [[Hnb Hn] Hf].
    destruct (Hpresent f Hf Hnb) as [v Hv]. congruence. }
  rewrite Hnone.
  destruct (getitems_spec data FEATURES) as (row & -> & Hrow).
  { intros f Hf. destruct (decide (f ∈ BINARY_COLUMNS)) as [Hb|Hb].
    - destruct (Hin f Hb) as (b & _ & ->). eauto.
    - rewrite (Hout f Hb). auto. }
  exists row. split; [reflexivity|].
  eapply Forall2_impl; [exact Hrow|]. intros f v Hv. simpl in Hv.
  destruct (decide (f ∈ BINARY_COLUMNS)) as [Hb|Hb].
  - destruct (Hin f Hb) as (b & Hco & Hd). exists b. split; [exact Hco|].
    congruence.
  - rewrite <- (Hout f Hb). exact Hv.
Qed.

(** A flag the caller left out is 0 in the row. *)
Lemma coerced_absent (user_input : pydict) (col : string) (b : Z) :
  user_input !! col = None -> coerced user_input col b -> b = 0.
Proof. unfold coerced. intros ->. auto. Qed.

Example prepare_complete_record :
  prepare_input_df Sample.complete_record
  = Ok {| columns := FEATURES; rows := [Sample.complete_row] |}.
Proof. vm_compute. reflexivity. Qed.

Example prepare_yes_flag :
  prepare_input_df (<["device_change_last_48hr" := PyStr "Yes"]> Sample.complete_record)
  = Ok {| columns := FEATURES; rows := [<[14%nat := PyInt 1]> Sample.complete_row] |}.
Proof. vm_compute. reflexivity. Qed.

Example prepare_no_flags :
  prepare_input_df
    (delete "device_change_last_48hr"
       (delete "new_payee_added_last_7d"
          (delete "international_ip_flag" Sample.complete_record)))
  = Ok {| columns := FEATURES; rows := [Sample.complete_row] |}.
Proof. vm_compute. reflexivity. Qed.

(** C2. A record with all 20 fields should come out with each flag equal to
    0 or 1. With the int 2 in a flag the frame has the 20 columns in order
    and 2 in that flag's column; with a NaN in a flag there is no frame. *)
Theorem prepare_input_df_flag_not_binary :
  prepare_input_df
    (<["device_change_last_48hr" := PyInt 2]> Sample.complete_record)
  = Ok {| columns := FEATURES;
          rows := [<[14%nat := PyInt 2]> Sample.complete_row] |}
  /\ prepare_input_df
       (<["international_ip_flag" := PyFloat nan]> Sample.complete_record)
     = Err ValueError_nan.
Proof. split; vm_compute; reflexivity. Qed.

(** C7. A record without one of the flags should still be normalised. When
    another flag holds a NaN, [_to_binary] raises inside the loop and there
    is no frame. *)
Theorem prepare_input_df_absent_flag_raises :
  let user_input :=
    <["new_payee_added_last_7d" := PyFloat nan]>
      (delete "device_change_last_48hr" Sample.complete_record) in
  user_input !! "device_change_last_48hr" = None
  /\ (forall f, f ∈ FEATURES -> f ∉ BINARY_COLUMNS -> is_Some (user_input !! f))
  /\ prepare_input_df user_input = Err ValueError_nan.
Proof.
  cbv zeta. split; [vm_compute; reflexivity|]. split; [|vm_compute; reflexivity].
  intros f Hf Hnb. apply list_elem_of_In in Hf. simpl in Hf.
  repeat destruct Hf as [<-|Hf]; try contradiction;
    try (vm_compute; eauto; fail);
    exfalso; apply Hnb; compute_done.
Qed.

(** ** Comparison of floats *)

Lemma SFcompare_swap (x y : spec_float) :
  SFcompare y x = option_map CompOpp (SFcompare x y).
Proof.
  destruct x as [sx|sx| |sx mx ex], y as [sy|sy| |sy my ey]; simpl;
    try reflexivity;
    try (destruct sx; reflexivity); try (destruct sy; reflexivity);
    try (destruct sx, sy; reflexivity).
  destruct sx, sy; simpl; try reflexivity;
    rewrite (Z.compare_antisym ex ey); destruct (ex ?= ey); simpl;
    try reflexivity;
    change (Pos.compare_cont Eq) with Pos.compare;
    rewrite (Pos.compare_antisym mx my);
    destruct (mx ?= my)%positive; reflexivity.
Qed.

(** [float_ge x y] is the IEEE comparison [x >= y]: true when [x] is greater
    than or equal to [y], false otherwise, so false when either is a NaN. *)
Lemma float_ge_spec (x y : float) :
  float_ge x y =
    match SFcompare (Prim2SF x) (Prim2SF y) with
    | Some (Gt | Eq) => true
    | _ => false
    end.
Proof.
  unfold float_ge. rewrite leb_spec. unfold SFleb. rewrite SFcompare_swap.
  destruct (SFcompare (Prim2SF x) (Prim2SF y)) as [[]|]; reflexivity.
Qed.

Lemma float_ge_eqb (x y : float) : (x =? y)%float = true -> float_ge x y = true.
Proof.
  rewrite float_ge_spec, FloatAxioms.eqb_spec. unfold SFeqb.
  destruct (SFcompare (Prim2SF x) (Prim2SF y)) as [[]|]; congruence.
Qed.

(** ** [load_model] and [predict_fraud] *)

Section Inference.

Context (here : path).
Context (math_exp : float -> foreign float).
Context (float_of_str : string -> foreign float).

#[local] Abbreviation model_path := (model_path here).
#[local] Abbreviation load_model := (load_model here).
#[local] Abbreviation proba_of := (proba_of math_exp float_of_str).
#[local] Abbreviation py_float := (py_float float_of_str).
#[local] Abbreviation predict_fraud := (predict_fraud here math_exp float_of_str).
#[local] Abbreviation exec := (exec here math_exp float_of_str).

(** The first load: the file is there and unpickles. *)
Lemma load_model_first (fs : filesystem) (w : world) (est : estimator) :
  _model w = None ->
  path_exists fs model_path = true ->
  joblib_load fs model_path = inr est ->
  load_model fs w =
    (Ok {| obj_id := loads w; obj := est |},
     {| _model := Some {| obj_id := loads w; obj := est |};
        loads := S (loads w) |}).
Proof.
  intros Hnone Hex Hload. unfold load_model, FraudUtils.load_model.
  rewrite Hnone, Hex, Hload. reflexivity.
Qed.

(** Every later call: the cached object, and the world as it was. *)
Lemma load_model_cached (fs : filesystem) (w : world) (model : instance) :
  _model w = Some model -> load_model fs w = (Ok model, w).
Proof.
  intros Hsome. unfold load_model, FraudUtils.load_model.
  rewrite Hsome. reflexivity.
Qed.

Lemma load_model_ok_inv (fs : filesystem) (w w' : world) (model : instance) :
  _model w = None ->
  load_model fs w = (Ok model, w') ->
  _model w' = Some model /\ loads w' = S (loads w)
  /\ path_exists fs model_path = true
  /\ joblib_load fs model_path = inr (obj model).
Proof.
  intros Hnone. unfold load_model, FraudUtils.load_model. rewrite Hnone.
  destruct (path_exists fs model_path); simpl; [|discriminate].
  destruct (joblib_load fs model_path) as [what|est]; [discriminate|].
  intros H. injection H as <- <-. simpl. auto.
Qed.

Lemma predict_fraud_world (fs : filesystem) (user_input : pydict)
    (threshold : float) (w : world) :
  snd (predict_fraud fs user_input threshold w) = snd (load_model fs w).
Proof.
  unfold predict_fraud, FraudUtils.predict_fraud.
  destruct (FraudUtils.load_model here fs w). reflexivity.
Qed.

Lemma predict_fraud_steps (fs : filesystem) (user_input : pydict)
    (threshold : float) (w w' : world) (model : instance) :
  load_model fs w = (Ok model, w') ->
  predict_fraud fs user_input threshold w =
    (X <- prepare_input_df user_input ;;
     proba <- proba_of (obj model) X ;;
     Ok (Z.b2z (float_ge proba threshold), proba),
     w').
Proof.
  intros Hload. unfold predict_fraud, FraudUtils.predict_fraud.
  change (FraudUtils.load_model here fs w) with (load_model fs w).
  rewrite Hload. reflexivity.
Qed.

(** C4. Once the model is loaded, the record prepared and the probability
    [proba] computed, [predict_fraud] returns [proba] with the label 1 when
    [proba >= threshold] and 0 otherwise; the label is 0 or 1, and it is 1
    when [proba] equals [threshold]. *)
Theorem predict_fraud_label (fs : filesystem) (user_input : pydict)
    (threshold : float) (w w' : world) (model : instance) (X : DataFrame)
    (proba : float) :
  load_model fs w = (Ok model, w') ->
  prepare_input_df user_input = Ok X ->
  proba_of (obj model) X = Ok proba ->
  exists label : Z,
    predict_fraud fs user_input threshold w = (Ok (label, proba), w')
    /\ label = match SFcompare (Prim2SF proba) (Prim2SF threshold) with
               | Some (Gt | Eq) => 1
               | _ => 0
               end
    /\ (label = 0 \/ label = 1)
    /\ ((proba =? threshold)%float = true -> label = 1).
Proof.
  intros Hload HX Hscore. exists (Z.b2z (float_ge proba threshold)).
  split; [|split; [|split]].
  - rewrite (predict_fraud_steps _ _ _ _ _ _ Hload), HX. simpl.
    rewrite Hscore. reflexivity.
  - rewrite float_ge_spec.
    destruct (SFcompare (Prim2SF proba) (Prim2SF threshold)) as [[]|];
      reflexivity.
  - destruct (float_ge proba threshold); auto.
  - intros Heq. rewrite (float_ge_eqb _ _ Heq). reflexivity.
Qed.

(** C5. The probability comes from [predict_proba] when the estimator has
    it (row 0, column 1 of its output); otherwise from [decision_function]
    when the estimator has that, as [1 / (1 + exp(-score))], and whatever
    probability is returned on that branch is that quotient; otherwise from
    [predict], as [float] of its first label, which is 0.0 for the label 0
    and 1.0 for the label 1. *)
Theorem predict_fraud_scoring_order (fs : filesystem) (user_input : pydict)
    (threshold : float) (w w' : world) (model : instance) (X : DataFrame) :
  load_model fs w = (Ok model, w') ->
  prepare_input_df user_input = Ok X ->
  (forall f arr row p,
      predict_proba (obj model) = Some f ->
      f X = inr arr -> arr !! 0%nat = Some row -> row !! 1%nat = Some p ->
      predict_fraud fs user_input threshold w
      = (Ok (Z.b2z (float_ge p threshold), p), w'))
  /\ (forall g arr x,
      predict_proba (obj model) = None ->
      decision_function (obj model) = Some g ->
      g X = inr arr -> arr !! 0%nat = Some x ->
      (forall e,
          math_exp (- x)%float = inr e -> (1 + e =? 0)%float = false ->
          predict_fraud fs user_input threshold w
          = (Ok (Z.b2z (float_ge (1 / (1 + e)) threshold), (1 / (1 + e))%float),
             w'))
      /\ (forall label p,
            predict_fraud fs user_input threshold w = (Ok (label, p), w') ->
            exists e, math_exp (- x)%float = inr e /\ p = (1 / (1 + e))%float))
  /\ (forall h arr v p,
      predict_proba (obj model) = None ->
      decision_function (obj model) = None ->
      predict (obj model) = Some h ->
      h X = inr arr -> arr !! 0%nat = Some v -> py_float v = Ok p ->
      predict_fraud fs user_input threshold w
      = (Ok (Z.b2z (float_ge p threshold), p), w'))
  /\ py_float (PyInt 0) = Ok 0%float
  /\ py_float (PyInt 1) = Ok 1%float.
Proof.
  intros Hload HX.
  rewrite (predict_fraud_steps _ _ _ _ _ _ Hload), HX. simpl bind.
  unfold proba_of, FraudUtils.proba_of.
  split; [|split; [|split; [|split]]].
  - intros f arr row p -> -> Harr Hrow. simpl. unfold getitem.
    rewrite Harr. simpl. rewrite Hrow. reflexivity.
  - intros g arr x -> -> -> Harr. simpl. unfold getitem.
    rewrite Harr. simpl. unfold truediv. split.
    + intros e He Hnz. rewrite He. simpl. rewrite Hnz. reflexivity.
    + intros label p. destruct (math_exp (- x)%float) as [what|e]; simpl;
        [discriminate|].
      destruct (1 + e =? 0)%float; simpl; [discriminate|].
      intros H. injection H as _ <-. exists e. auto.
  - intros h arr v p -> -> -> -> Harr Hp. simpl. unfold getitem.
    rewrite Harr. simpl.
    change (FraudUtils.py_float float_of_str v) with (py_float v).
    rewrite Hp. reflexivity.
  - vm_compute. reflexivity.
  - vm_compute. reflexivity.
Qed.

(** C3. A record that lacks required fields other than the flags, and whose
    supplied flags [_to_binary] accepts, is refused with the ValueError that
    lists every such field, in schema order; and once [load_model] has
    returned the model, [predict_fraud] lets that error through as it is. *)
Theorem missing_features_reported (user_input : pydict) :
  flags_coercible user_input ->
  (exists f, f ∈ FEATURES /\ (f ∉ BINARY_COLUMNS) /\ user_input !! f = None) ->
  exists missing : list string,
    prepare_input_df user_input = Err (ValueError_missing missing)
    /\ missing = filter (fun f => (f ∉ BINARY_COLUMNS) /\ user_input !! f = None)
                   FEATURES
    /\ (forall f, f ∈ missing <->
          f ∈ FEATURES /\ (f ∉ BINARY_COLUMNS) /\ user_input !! f = None)
    /\ (forall fs threshold w w' model,
          load_model fs w = (Ok model, w') ->
          predict_fraud fs user_input threshold w
          = (Err (ValueError_missing missing), w')).
Proof.
  intros Hflags (f0 & Hf0 & Hnb0 & Hnone0).
  destruct (normalise_columns_ok _ BINARY_COLUMNS_NoDup user_input Hflags)
    as [data Hdata].
  pose proof (prepare_input_df_after_flags _ _ Hdata) as Hprep.
  set (missing := filter (fun f => (f ∉ BINARY_COLUMNS) /\ user_input !! f = None)
                    FEATURES) in *.
  assert (Hin : forall f, f ∈ missing <->
            f ∈ FEATURES /\ (f ∉ BINARY_COLUMNS) /\ user_input !! f = None).
  { intros f. unfold missing. rewrite list_elem_of_filter. tauto. }
  assert (Herr : prepare_input_df user_input = Err (ValueError_missing missing)).
  { rewrite Hprep. destruct missing as [|f l] eqn:E; [|reflexivity].
    exfalso. assert (H0 : f0 ∈ @nil string) by (apply Hin; auto).
    inversion H0. }
  exists missing. split; [exact Herr|]. split; [reflexivity|].
  split; [exact Hin|].
  intros fs threshold w w' model Hload.
  rewrite (predict_fraud_steps _ _ _ _ _ _ Hload), Herr. reflexivity.
Qed.

(** C6. [load_model] raises the FileNotFoundError that carries
    [model_path] exactly when nothing is cached yet and the file is not
    there; the world is then as it was, with nothing cached, and a later
    call that finds the file loads it. *)
Theorem load_model_not_found (fs : filesystem) (w : world) :
  (forall p, fst (load_model fs w) = Err (FileNotFoundError p) <->
     _model w = None /\ path_exists fs model_path = false /\ p = model_path)
  /\ (forall p, fst (load_model fs w) = Err (FileNotFoundError p) ->
        snd (load_model fs w) = w /\ _model (snd (load_model fs w)) = None)
  /\ (forall p fs' est,
        fst (load_model fs w) = Err (FileNotFoundError p) ->
        path_exists fs' model_path = true ->
        joblib_load fs' model_path = inr est ->
        load_model fs' (snd (load_model fs w))
        = (Ok {| obj_id := loads w; obj := est |},
           {| _model := Some {| obj_id := loads w; obj := est |};
              loads := S (loads w) |})).
Proof.
  assert (Hiff : forall p, fst (load_model fs w) = Err (FileNotFoundError p) <->
     _model w = None /\ path_exists fs model_path = false /\ p = model_path).
  { intros p. unfold load_model, FraudUtils.load_model.
    destruct (_model w) as [m|]; simpl.
    - split; [discriminate|]. intros (H & _). discriminate.
    - destruct (path_exists fs model_path); simpl.
      + destruct (joblib_load fs model_path); simpl;
          (split; [discriminate|]); intros (_ & H & _); discriminate.
      + split; [|intros (_ & _ & ->); reflexivity].
        intros H. injection H as <-. auto. }
  assert (Hsame : forall p, fst (load_model fs w) = Err (FileNotFoundError p) ->
            snd (load_model fs w) = w /\ _model (snd (load_model fs w)) = None).
  { intros p Hp. apply Hiff in Hp as (Hnone & Hex & _).
    unfold load_model, FraudUtils.load_model. rewrite Hnone, Hex. simpl. auto. }
  split; [exact Hiff|]. split; [exact Hsame|].
  intros p fs' est Hp Hex Hload.
  destruct (Hsame p Hp) as [-> _]. apply Hiff in Hp as (Hnone & _).
  apply load_model_first; assumption.
Qed.

Lemma exec_cached (w : world) (model : instance) (op : operation) :
  _model w = Some model -> exec w op = w.
Proof.
  intros Hsome. destruct op as [fs|fs user_input threshold]; simpl.
  - rewrite (load_model_cached fs w model Hsome). reflexivity.
  - rewrite predict_fraud_world, (load_model_cached fs w model Hsome).
    reflexivity.
Qed.

(** C8. The cache starts empty. A successful [load_model] on the empty
    cache stores the object it returns and makes one [joblib.load] call;
    on a filled cache every [load_model] returns the stored object and
    leaves the world as it is; and no sequence of calls of [load_model]
    and [predict_fraud] changes a filled cache or loads again. *)
Theorem model_cache_two_states :
  _model initial = None
  /\ (forall fs w est,
        _model w = None ->
        path_exists fs model_path = true ->
        joblib_load fs model_path = inr est ->
        load_model fs w
        = (Ok {| obj_id := loads w; obj := est |},
           {| _model := Some {| obj_id := loads w; obj := est |};
              loads := S (loads w) |}))
  /\ (forall fs w w' model,
        _model w = None -> load_model fs w = (Ok model, w') ->
        _model w' = Some model /\ loads w' = S (loads w))
  /\ (forall fs w model,
        _model w = Some model -> load_model fs w = (Ok model, w))
  /\ (forall ops w model,
        _model w = Some model -> foldl exec w ops = w).
Proof.
  split; [reflexivity|]. split; [|split; [|split]].
  - intros fs w est. apply load_model_first.
  - intros fs w w' model Hnone Hload.
    destruct (load_model_ok_inv _ _ _ _ Hnone Hload) as (H1 & H2 & _). auto.
  - intros fs w model. apply load_model_cached.
  - intros ops. induction ops as [|op ops IH]; intros w model Hsome; simpl.
    + reflexivity.
    + rewrite (exec_cached w model op Hsome). apply (IH w model Hsome).
Qed.

End Inference.

(** ** Calls of [load_model] that overlap *)

Section Interleaving.

Context (here : path) (fs : filesystem).

#[local] Abbreviation model_path := (model_path here).
#[local] Abbreviation load_model := (load_model here fs).
#[local] Abbreviation load_model_n := (load_model_n here fs).
#[local] Abbreviation thread_step := (thread_step here fs).
#[local] Abbreviation sched_step := (sched_step here fs).
#[local] Abbreviation run := (run here fs).
#[local] Abbreviation loaded_from := (loaded_from here fs).
#[local] Abbreviation pc_ok := (pc_ok here fs).
#[local] Abbreviation invariant := (invariant here fs).

Lemma loaded_from_mono (w w' : world) (m : instance) :
  (loads w <= loads w')%nat -> loaded_from w m -> loaded_from w' m.
Proof. unfold loaded_from. intros Hle [Hid Hobj]. split; [lia|exact Hobj]. Qed.

Lemma pc_ok_mono (w w' : world) (p : pc) :
  (loads w <= loads w')%nat ->
  (is_Some (_model w) -> is_Some (_model w')) ->
  pc_ok w p -> pc_ok w' p.
Proof.
  intros Hle Hsome. destruct p as [| | |m| |r|e]; simpl; auto.
  - apply loaded_from_mono, Hle.
  - intros (m & -> & Hm). exists m. split; [reflexivity|].
    eapply loaded_from_mono; eassumption.
Qed.

Lemma thread_step_spec (w w' : world) (p p' : pc) :
  thread_step w p = (w', p') ->
  (forall m, _model w = Some m -> loaded_from w m) ->
  pc_ok w p ->
  (loads w <= loads w')%nat
  /\ (is_Some (_model w) -> is_Some (_model w'))
  /\ (forall m, _model w' = Some m -> loaded_from w' m)
  /\ pc_ok w' p'
  /\ (loads w' + pending p' <= loads w + pending p)%nat.
Proof.
  intros Hstep Hcache Hp.
  destruct p as [| | |m| |r|e]; simpl in Hstep; injection Hstep as <- <-;
    (split; [|split; [|split; [|split]]]); simpl;
    try lia; try exact Hcache; try exact Hp; auto.
  - destruct (_model w) eqn:E; simpl; eauto.
  - destruct (_model w); simpl; lia.
  - destruct (negb _); exact I.
  - destruct (negb _); simpl; lia.
  - intros m Hm. eapply loaded_from_mono; [|apply Hcache, Hm]. simpl. lia.
  - destruct (joblib_load fs model_path) as [what|est] eqn:E; simpl; [exact I|].
    split; simpl; [lia|exact E].
  - destruct (joblib_load fs model_path); simpl; lia.
  - intros m' Hm'. injection Hm' as Hm'. subst m'. exact Hp.
  - destruct Hp as [m Hm]. exists m. split; [exact Hm|]. apply Hcache, Hm.
Qed.

Lemma sum_list_with_insert {A} (f : A -> nat) (l : list A) (i : nat) (x y : A) :
  l !! i = Some x ->
  (sum_list_with f (<[i := y]> l) + f x = sum_list_with f l + f y)%nat.
Proof.
  revert i. induction l as [|a l IH]; intros [|i] Hi; simpl in *;
    try discriminate.
  - injection Hi as ->. lia.
  - specialize (IH i Hi). lia.
Qed.

Lemma sched_step_invariant (st : world * list pc) (i : nat) :
  invariant st -> invariant (sched_step st i).
Proof.
  destruct st as [w ts]. unfold sched_step, FraudUtils.sched_step. simpl.
  intros (Hcache & Hts & Hcount).
  destruct (ts !! i) as [p|] eqn:Hi;
    [|split; [exact Hcache|split; [exact Hts|exact Hcount]]].
  destruct (thread_step w p) as [w' p'] eqn:Hstep.
  assert (Hp : pc_ok w p) by (eapply Forall_lookup_1; eassumption).
  destruct (thread_step_spec _ _ _ _ Hstep Hcache Hp)
    as (Hle & Hsome & Hcache' & Hp' & Hpend).
  unfold invariant. cbn [fst snd] in *. split; [exact Hcache'|]. split.
  - apply Forall_insert; [|exact Hp'].
    eapply Forall_impl; [exact Hts|]. intros q. apply pc_ok_mono; assumption.
  - rewrite length_insert.
    pose proof (sum_list_with_insert pending ts i p p' Hi). lia.
Qed.

Lemma run_invariant (schedule : list nat) (st : world * list pc) :
  invariant st -> invariant (run schedule st).
Proof.
  revert st. induction schedule as [|i schedule IH]; intros st Hst; simpl.
  - exact Hst.
  - apply IH, sched_step_invariant, Hst.
Qed.

Lemma sched_step_length (st : world * list pc) (i : nat) :
  length (snd (sched_step st i)) = length (snd st).
Proof.
  unfold sched_step, FraudUtils.sched_step.
  destruct (snd st !! i) as [p|]; [|reflexivity].
  destruct (FraudUtils.thread_step here fs (fst st) p). simpl.
  apply length_insert.
Qed.

Lemma run_length (schedule : list nat) (st : world * list pc) :
  length (snd (run schedule st)) = length (snd st).
Proof.
  revert st. induction schedule as [|i schedule IH]; intros st.
  - reflexivity.
  - change (run (i :: schedule) st) with (run schedule (sched_step st i)).
    rewrite IH. apply sched_step_length.
Qed.

Lemma first_callers_invariant (n : nat) : invariant (first_callers n).
Proof.
  unfold invariant, first_callers. simpl. split; [discriminate|]. split.
  - apply Forall_replicate. exact I.
  - rewrite length_replicate.
    induction n as [|n IH]; simpl; lia.
Qed.

(** One thread that runs alone does what [load_model] does. *)
Lemma thread_alone (w : world) :
  run [0; 0; 0; 0; 0]%nat (w, [AtTest])
  = (snd (load_model w),
     [match fst (load_model w) with
      | Ok m => Returned (Some m)
      | Err e => Raising e
      end]).
Proof.
  unfold load_model, FraudUtils.load_model.
  unfold run, FraudUtils.run, FraudUtils.sched_step. simpl.
  destruct w as [cache n]. destruct cache as [m|]; simpl; [reflexivity|].
  destruct (path_exists fs model_path); simpl; [|reflexivity].
  destruct (joblib_load fs model_path); simpl; reflexivity.
Qed.

Lemma load_model_n_cached (n : nat) (w : world) (m : instance) :
  _model w = Some m -> load_model_n n w = (replicate n (Ok m), w).
Proof.
  intros Hsome. induction n as [|n IH]; simpl; [reflexivity|].
  change (FraudUtils.load_model here fs w) with (load_model w).
  rewrite (load_model_cached here fs w m Hsome).
  change (FraudUtils.load_model_n here fs n w) with (load_model_n n w).
  rewrite IH. reflexivity.
Qed.

(** C9. With the file there and loadable: [N] first calls made one after
    the other load once, and every one of them returns that one object.
    When the [N] calls overlap, whatever the schedule, there are at most
    [N] loads, and a call that has returned has returned an object that a
    finished [joblib.load] built, never [None]. *)
Theorem load_model_calls (est : estimator) (n : nat) :
  path_exists fs model_path = true ->
  joblib_load fs model_path = inr est ->
  load_model_n (S n) initial
  = (replicate (S n) (Ok {| obj_id := 0; obj := est |}),
     {| _model := Some {| obj_id := 0; obj := est |}; loads := 1 |})
  /\ (forall schedule i r,
        (loads (fst (run schedule (first_callers (S n)))) <= S n)%nat
        /\ (snd (run schedule (first_callers (S n))) !! i = Some (Returned r) ->
             exists m, r = Some m
               /\ (obj_id m < loads (fst (run schedule (first_callers (S n)))))%nat
               /\ obj m = est)).
Proof.
  intros Hex Hload. split.
  - simpl.
    change (FraudUtils.load_model here fs initial) with (load_model initial).
    rewrite (load_model_first here fs initial est eq_refl Hex Hload).
    change (FraudUtils.load_model_n here fs n ?w) with (load_model_n n w).
    change (loads initial) with 0%nat.
    rewrite (load_model_n_cached n
               {| _model := Some {| obj_id := 0; obj := est |}; loads := 1 |}
               {| obj_id := 0; obj := est |} eq_refl).
    reflexivity.
  - intros schedule i r.
    pose proof (run_invariant schedule _ (first_callers_invariant (S n)))
      as (_ & Hts & Hcount).
    assert (Hlen : length (snd (first_callers (S n))) = S n)
      by apply length_replicate.
    rewrite run_length, Hlen in Hcount.
    split; [lia|]. intros Hi.
    pose proof (Forall_lookup_1 _ _ _ _ Hts Hi) as (m & -> & Hid & Hobj).
    exists m. split; [reflexivity|]. split; [exact Hid|].
    rewrite Hload in Hobj. injection Hobj as <-. reflexivity.
Qed.

End Interleaving.

(** ** The properties on the sample inputs *)

Section OnSamples.

Import Sample.

#[local] Abbreviation load_model := (load_model here).
#[local] Abbreviation predict_fraud :=
  (predict_fraud here exp_near_zero float_of_digit).

Lemma to_binary_tokens_witness :
  _to_binary (PyStr "  YES  ") = Ok 1 /\ _to_binary (PyStr "no") = Ok 0.
Proof.
  split.
  - destruct (to_binary_tokens "YES") as (Hyes & _ & Hpad).
    transitivity (_to_binary (PyStr "YES")).
    + apply (Hpad "  " "  "); reflexivity.
    + apply Hyes. compute_done.
  - destruct (to_binary_tokens "no") as (_ & Hno & _).
    apply Hno. compute_done.
Defined.

Lemma without_age_flags_coercible : flags_coercible without_age.
Proof.
  intros col v Hcol Hv. apply list_elem_of_In in Hcol. simpl in Hcol.
  repeat destruct Hcol as [<-|Hcol]; try contradiction;
    vm_compute in Hv; injection Hv as <-; vm_compute; eauto.
Qed.

Lemma missing_features_reported_witness :
  exists missing,
    missing = ["age"]
    /\ prepare_input_df without_age = Err (ValueError_missing missing)
    /\ predict_fraud (disk_with proba_estimator) without_age 0.5 initial
       = (Err (ValueError_missing missing), loaded proba_estimator).
Proof.
  destruct (missing_features_reported here exp_near_zero float_of_digit
              without_age without_age_flags_coercible)
    as (missing & Hprep & Hmissing & _ & Hpredict).
  { exists "age". split; [compute_done|]. split; [compute_done|].
    vm_compute. reflexivity. }
  exists missing. split; [rewrite Hmissing; vm_compute; reflexivity|].
  split; [exact Hprep|].
  apply (Hpredict _ _ _ _ (object 0 proba_estimator)).
  vm_compute. reflexivity.
Defined.

(** C3, as the claim has it. With the model file not there, a record
    without "age" makes [predict_fraud] raise the FileNotFoundError of
    [load_model], which runs first: the error names the path, not "age". *)
Lemma predict_fraud_without_model_file :
  predict_fraud empty_disk without_age 0.5 initial
  = (Err (FileNotFoundError ["srv"; "fraud"; "mule_fraud_model.pkl"]), initial).
Proof. vm_compute. reflexivity. Qed.

Lemma predict_fraud_label_witness :
  exists label,
    predict_fraud (disk_with proba_estimator) complete_record 0.5 initial
    = (Ok (label, 0.5%float), loaded proba_estimator)
    /\ label = 1.
Proof.
  destruct (predict_fraud_label here exp_near_zero float_of_digit
              (disk_with proba_estimator) complete_record 0.5 initial
              (loaded proba_estimator) (object 0 proba_estimator)
              complete_frame 0.5)
    as (label & Hpredict & _ & _ & Hboundary);
    [vm_compute; reflexivity ..|].
  exists label. split; [exact Hpredict|].
  apply Hboundary. vm_compute. reflexivity.
Defined.

Lemma predict_fraud_scoring_order_witness :
  predict_fraud (disk_with proba_estimator) complete_record 0.5 initial
  = (Ok (1, 0.5%float), loaded proba_estimator)
  /\ predict_fraud (disk_with margin_estimator) complete_record 0.5 initial
     = (Ok (1, 0.5%float), loaded margin_estimator)
  /\ predict_fraud (disk_with label_estimator) complete_record 0.5 initial
     = (Ok (1, 1%float), loaded label_estimator).
Proof.
  split; [|split].
  - destruct (predict_fraud_scoring_order here exp_near_zero float_of_digit
                (disk_with proba_estimator) complete_record 0.5 initial
                (loaded proba_estimator) (object 0 proba_estimator)
                complete_frame) as (Hproba & _);
      [vm_compute; reflexivity ..|].
    apply (Hproba (fun _ => inr [[0.5; 0.5]%float])
             [[0.5; 0.5]%float] [0.5; 0.5]%float 0.5%float); reflexivity.
  - destruct (predict_fraud_scoring_order here exp_near_zero float_of_digit
                (disk_with margin_estimator) complete_record 0.5 initial
                (loaded margin_estimator) (object 0 margin_estimator)
                complete_frame) as (_ & Hmargin & _);
      [vm_compute; reflexivity ..|].
    destruct (Hmargin (fun _ => inr [0%float]) [0%float] 0%float)
      as (Hlogistic & _); [reflexivity ..|].
    apply (Hlogistic 1%float); reflexivity.
  - destruct (predict_fraud_scoring_order here exp_near_zero float_of_digit
                (disk_with label_estimator) complete_record 0.5 initial
                (loaded label_estimator) (object 0 label_estimator)
                complete_frame) as (_ & _ & Hlabel & _);
      [vm_compute; reflexivity ..|].
    apply (Hlabel (fun _ => inr [PyInt 1]) [PyInt 1] (PyInt 1) 1%float);
      reflexivity.
Defined.

Lemma load_model_not_found_witness :
  load_model empty_disk initial
  = (Err (FileNotFoundError ["srv"; "fraud"; "mule_fraud_model.pkl"]), initial)
  /\ load_model (disk_with proba_estimator) (snd (load_model empty_disk initial))
     = (Ok (object 0 proba_estimator), loaded proba_estimator).
Proof.
  destruct (load_model_not_found here empty_disk initial)
    as (Hiff & Hsame & Hretry).
  assert (Hfst : fst (load_model empty_disk initial)
                 = Err (FileNotFoundError ["srv"; "fraud"; "mule_fraud_model.pkl"])).
  { apply Hiff. repeat split. }
  split.
  - destruct (Hsame _ Hfst) as [Hw _].
    rewrite (surjective_pairing (load_model empty_disk initial)), Hfst, Hw.
    reflexivity.
  - apply (Hretry _ _ _ Hfst); reflexivity.
Defined.

Lemma model_cache_two_states_witness :
  load_model (disk_with label_estimator) initial
  = (Ok (object 0 label_estimator), loaded label_estimator)
  /\ foldl (exec here exp_near_zero float_of_digit) (loaded label_estimator)
       [ LoadModel empty_disk;
         PredictFraud (disk_with proba_estimator) complete_record 0.5;
         PredictFraud empty_disk without_age 0.5;
         LoadModel (disk_with margin_estimator) ]
     = loaded label_estimator.
Proof.
  destruct (model_cache_two_states here exp_near_zero float_of_digit)
    as (_ & Hfirst & _ & _ & Hstay).
  split.
  - apply (Hfirst (disk_with label_estimator) initial label_estimator);
      reflexivity.
  - apply (Hstay _ _ (object 0 label_estimator)). reflexivity.
Defined.

(** C9, as the claim has it. Two threads call [load_model] for the first
    time; each tests [_model] before the other has stored: [joblib.load]
    runs twice, and the two callers get two different objects. *)
Lemma load_model_race :
  run here (disk_with proba_estimator) racing_schedule (first_callers 2)
  = ({| _model := Some (object 1 proba_estimator); loads := 2 |},
     [ Returned (Some (object 0 proba_estimator));
       Returned (Some (object 1 proba_estimator)) ]).
Proof. vm_compute. reflexivity. Qed.

Lemma load_model_calls_witness :
  load_model_n here (disk_with proba_estimator) 2 initial
  = ([Ok (object 0 proba_estimator); Ok (object 0 proba_estimator)],
     loaded proba_estimator)
  /\ (loads (fst (run here (disk_with proba_estimator) racing_schedule
                    (first_callers 2))) <= 2)%nat.
Proof.
  destruct (load_model_calls here (disk_with proba_estimator)
              proba_estimator 1 eq_refl eq_refl) as (Hseq & Hrace).
  split; [exact Hseq|].
  apply (Hrace racing_schedule 0%nat None).
Defined.

End OnSamples.
